(** * The stanza parser helper: [pkg/stanza/operator/helper/parser.go]

    A shallow embedding of [NewParserConfig], [ParserConfig.Build],
    [ParserOperator.ProcessWith], [ProcessWithCallback] and [ParseWith],
    and the properties of the parser composition engine that the
    specification states about them.

    The Go code works on one [*entry.Entry] that it mutates in place and
    hands to collaborators of the [entry], [errors] and [helper] packages.
    The embedding threads that entry through a small state monad which also
    records, in order, every call the code makes with the entry and every
    call of the parse function and of the callback. *)

From Stdlib Require Import String List ZArith.
From ExtLib Require Import Structures.Monad Data.Monads.EitherMonad.
Import ListNotations.
Import MonadNotation.
Local Open Scope string_scope.
Local Open Scope list_scope.
Local Open Scope monad_scope.

Set Implicit Arguments.
Set Warnings "-register-all".

(** ** The entry *)

(** Modelled from the spec: the semi-structured values of section 3
    ("scalar, ordered sequence, or string-keyed mapping"); the Go code holds
    them as [interface{}]. *)
Inductive Value : Type :=
| VNil
| VBool (b : bool)
| VInt (n : Z)
| VString (s : string)
| VSeq (l : list Value)
| VMap (m : list (string * Value)).

(** Modelled from the spec: "optional enumerated severity level". *)
Inductive SeverityLevel : Type :=
| LvlTrace | LvlDebug | LvlInfo | LvlWarn | LvlError | LvlFatal.

(** Modelled from the spec: "optional trace id, span id, trace flags". *)
Record TraceContext : Type := mkTrace {
  TraceId : string;
  SpanId : string;
  TraceFlags : string
}.

(** Modelled from the spec: the Entry of section 3 ([entry.Entry] is not
    part of the sources at hand).  Two containers and the body carry the
    payload; four typed slots are filled by the enrichment sub-parsers. *)
Record Entry : Type := mkEntry {
  Timestamp : option Z;
  Body : Value;
  Attributes : list (string * Value);
  Resource : list (string * Value);
  Severity : option SeverityLevel;
  Trace : option TraceContext;
  ScopeName : option string
}.

(** The four enrichment kinds, in the order [ParseWith] runs them. *)
Inductive SubParserKind : Type := KTime | KSeverity | KTrace | KScopeName.



(** ** Collaborators of parser.go

    Everything [parser.go] imports or inherits and that lives in other
    files: the [errors] package, [entry.Field] with [Entry.Get] and
    [Entry.Set], the transformer helper it embeds, and the four sub-parser
    types.  They are parameters of the development.  A Go method with a
    pointer receiver on the entry becomes a function from the entry to the
    updated entry and the method's result; a result [(T, error)] becomes
    [error + T]; a result [error] becomes [option error] ([None] is [nil]).
    [Validate] has a pointer receiver too: it returns the sub-parser it
    leaves behind the pointer, which is the pointer [Build] stores in the
    operator. *)
Class Env : Type := {
  (* package errors *)
  error : Type;
  NewError : string -> string -> list string -> error;
  Wrap : error -> string -> error;
  (* package entry *)
  Field : Type;
  zeroField : Field;
  NewBodyField : list string -> Field;
  NewAttributeField : list string -> Field;
  Field_String : Field -> string;
  Entry_Get : Entry -> Field -> option Value;
  Entry_Set : Entry -> Field -> Value -> Entry * option error;
  (* zap *)
  Logger : Type;
  (* helper/transformer.go *)
  TransformerConfig : Type;
  TransformerOperator : Type;
  zeroTransformerOperator : TransformerOperator;
  NewTransformerConfig : string -> string -> TransformerConfig;
  TransformerConfig_Build : TransformerConfig -> Logger -> error + TransformerOperator;
  (* Skip evaluates the [if] condition against the entry *)
  Skip : TransformerOperator -> Entry -> error + bool;
  HandleEntryError : TransformerOperator -> Entry -> error -> option error;
  (* helper/time.go *)
  TimeParser : Type;
  TimeParser_Validate : TimeParser -> TimeParser * option error;
  TimeParser_Parse : TimeParser -> Entry -> Entry * option error;
  (* helper/severity.go *)
  Config : Type;
  SeverityParser : Type;
  Config_Build : Config -> Logger -> error + SeverityParser;
  SeverityParser_Parse : SeverityParser -> Entry -> Entry * option error;
  (* helper/trace.go *)
  TraceParser : Type;
  TraceParser_Validate : TraceParser -> TraceParser * option error;
  TraceParser_Parse : TraceParser -> Entry -> Entry * option error;
  (* helper/scope_name.go; the specification gives every sub-parser kind a
     Validate, parser.go never calls this one *)
  ScopeNameParser : Type;
  ScopeNameParser_Validate : ScopeNameParser -> option error;
  ScopeNameParser_Parse : ScopeNameParser -> Entry -> Entry * option error
}.

(** [ParseFunction = func(interface{}) (interface{}, error)] *)
Definition ParseFunction {E : Env} : Type := Value -> error + Value.

(** The optional post-parse hook [cb], a Go function from the entry
    pointer to [error]. *)
Definition Callback {E : Env} : Type := Entry -> Entry * option error.

(** ** Configuration and operator *)

Module ParserConfig.
Record t {E : Env} : Type := mk {
  TransformerConfig : TransformerConfig;
  ParseFrom : Field;
  ParseTo : Field;
  TimeParser : option TimeParser;
  Config : option Config;
  TraceParser : option TraceParser;
  ScopeNameParser : option ScopeNameParser
}.
Arguments mk {E} _ _ _ _ _ _ _.
End ParserConfig.

Module ParserOperator.
Record t {E : Env} : Type := mk {
  TransformerOperator : TransformerOperator;
  ParseFrom : Field;
  ParseTo : Field;
  TimeParser : option TimeParser;
  SeverityParser : option SeverityParser;
  TraceParser : option TraceParser;
  ScopeNameParser : option ScopeNameParser
}.
Arguments mk {E} _ _ _ _ _ _ _.
End ParserOperator.

(** [ParserOperator{}], the zero value [Build] returns next to an error. *)
Definition zeroParserOperator {E : Env} : ParserOperator.t :=
  ParserOperator.mk zeroTransformerOperator zeroField zeroField None None None None.

(** The field assignments [parserOperator.X = ...] of [Build]. *)
Definition setTimeParser {E : Env} (p : ParserOperator.t) (x : TimeParser)
  : ParserOperator.t :=
  ParserOperator.mk (ParserOperator.TransformerOperator p)
    (ParserOperator.ParseFrom p) (ParserOperator.ParseTo p)
    (Some x) (ParserOperator.SeverityParser p)
    (ParserOperator.TraceParser p) (ParserOperator.ScopeNameParser p).

Definition setSeverityParser {E : Env} (p : ParserOperator.t) (x : SeverityParser)
  : ParserOperator.t :=
  ParserOperator.mk (ParserOperator.TransformerOperator p)
    (ParserOperator.ParseFrom p) (ParserOperator.ParseTo p)
    (ParserOperator.TimeParser p) (Some x)
    (ParserOperator.TraceParser p) (ParserOperator.ScopeNameParser p).

Definition setTraceParser {E : Env} (p : ParserOperator.t) (x : TraceParser)
  : ParserOperator.t :=
  ParserOperator.mk (ParserOperator.TransformerOperator p)
    (ParserOperator.ParseFrom p) (ParserOperator.ParseTo p)
    (ParserOperator.TimeParser p) (ParserOperator.SeverityParser p)
    (Some x) (ParserOperator.ScopeNameParser p).

Definition setScopeNameParser {E : Env} (p : ParserOperator.t) (x : ScopeNameParser)
  : ParserOperator.t :=
  ParserOperator.mk (ParserOperator.TransformerOperator p)
    (ParserOperator.ParseFrom p) (ParserOperator.ParseTo p)
    (ParserOperator.TimeParser p) (ParserOperator.SeverityParser p)
    (ParserOperator.TraceParser p) (Some x).

(** ** NewParserConfig and Build *)

Definition NewParserConfig {E : Env} (operatorID operatorType : string)
  : ParserConfig.t :=
  ParserConfig.mk
    (NewTransformerConfig operatorID operatorType)
    (NewBodyField [])
    (NewAttributeField [])
    None None None None.

Section Build.
Context {E : Env}.

(** The body of [Build] after the transformer has been built; an early
    [return ParserOperator{}, err] is a failure of the error monad. *)
Definition buildSubParsers (c : ParserConfig.t) (logger : Logger)
    (parserOperator : ParserOperator.t) : error + ParserOperator.t :=
  parserOperator <-
    match ParserConfig.TimeParser c with
    | Some tp =>
        let '(tp, err) := TimeParser_Validate tp in
        match err with
        | Some err => inl err
        | None => ret (setTimeParser parserOperator tp)
        end
    | None => ret parserOperator
    end ;;
  parserOperator <-
    match ParserConfig.Config c with
    | Some sc =>
        severityParser <- Config_Build sc logger ;;
        ret (setSeverityParser parserOperator severityParser)
    | None => ret parserOperator
    end ;;
  parserOperator <-
    match ParserConfig.TraceParser c with
    | Some tp =>
        let '(tp, err) := TraceParser_Validate tp in
        match err with
        | Some err => inl err
        | None => ret (setTraceParser parserOperator tp)
        end
    | None => ret parserOperator
    end ;;
  parserOperator <-
    match ParserConfig.ScopeNameParser c with
    | Some sp => ret (setScopeNameParser parserOperator sp)
    | None => ret parserOperator
    end ;;
  ret parserOperator.

(** [func (c ParserConfig) Build(logger) (ParserOperator, error)] *)
Definition Build (c : ParserConfig.t) (logger : Logger)
  : ParserOperator.t * option error :=
  match TransformerConfig_Build (ParserConfig.TransformerConfig c) logger with
  | inl err => (zeroParserOperator, Some err)
  | inr transformerOperator =>
      let parserOperator :=
        ParserOperator.mk transformerOperator
          (ParserConfig.ParseFrom c) (ParserConfig.ParseTo c)
          None None None None in
      match buildSubParsers c logger parserOperator with
      | inl err => (zeroParserOperator, Some err)
      | inr parserOperator => (parserOperator, None)
      end
  end.
End Build.

(** ** Running against the entry

    Every call [parser.go] makes with the entry is recorded, and so are the
    calls of the parse function and of the callback.  [EvHandleEntryError] and
    [EvWrite] keep the entry as it is when it is handed over: what the error
    policy or the next operators do with it afterwards is theirs. *)
Inductive Event {E : Env} : Type :=
| EvSkip
| EvGet (f : Field)
| EvParse (v : Value)
| EvSet (f : Field) (v : Value)
| EvSubParser (k : SubParserKind)
| EvCallback
| EvHandleEntryError (e : Entry) (err : error)
| EvWrite (e : Entry).

(** A computation on the entry behind the pointer: its result, the entry it
    leaves, and the calls it made. *)
Definition M {E : Env} (A : Type) : Type := Entry -> A * Entry * list Event.

#[export] Instance Monad_M {E : Env} : Monad M := {
  ret := fun A (a : A) e => (a, e, []);
  bind := fun A B (m : M A) (k : A -> M B) e =>
    let '(a, e1, l1) := m e in
    let '(b, e2, l2) := k a e1 in
    (b, e2, l1 ++ l2)
}.

Section Calls.
Context {E : Env}.

(** A collaborator that only looks at the entry. *)
Definition observe {A : Type} (ev : Event) (f : Entry -> A) : M A :=
  fun e => (f e, e, [ev]).

(** A collaborator that may change the entry behind the pointer. *)
Definition mutate {A : Type} (ev : Event) (f : Entry -> Entry * A) : M A :=
  fun e => let '(e', a) := f e in (a, e', [ev]).

Definition callSkip (t : TransformerOperator) : M (error + bool) :=
  observe EvSkip (Skip t).

Definition callGet (f : Field) : M (option Value) :=
  observe (EvGet f) (fun e => Entry_Get e f).

Definition callParse (parse : ParseFunction) (v : Value) : M (error + Value) :=
  observe (EvParse v) (fun _ => parse v).

Definition callSet (f : Field) (v : Value) : M (option error) :=
  mutate (EvSet f v) (fun e => Entry_Set e f v).

Definition callSubParser (k : SubParserKind)
    (parse : Entry -> Entry * option error) : M (option error) :=
  mutate (EvSubParser k) parse.

Definition callCallback (cb : Callback) : M (option error) :=
  mutate EvCallback cb.

(** The hand-over to the error policy.  What the policy then does with the
    entry (log it, forward it under [send], drop it) happens inside the call
    and leaves no event of its own: the log shows the calls of [parser.go]. *)
Definition callHandleEntryError (t : TransformerOperator) (err : error)
  : M (option error) :=
  fun e => (HandleEntryError t e err, e, [EvHandleEntryError e err]).

Definition callWrite (t : TransformerOperator) : M unit :=
  fun e => (tt, e, [EvWrite e]).

(** [var err error; if p.X != nil { err = p.X.Parse(entry) }] *)
Definition parseIfConfigured {P : Type} (k : SubParserKind) (sp : option P)
    (parse : P -> Entry -> Entry * option error) : M (option error) :=
  match sp with
  | Some x => callSubParser k (parse x)
  | None => ret None
  end.
End Calls.

(** ** ParseWith, ProcessWithCallback, ProcessWith *)

Section Process.
Context {E : Env}.

(** [func (p *ParserOperator) ParseWith(ctx, entry, parse) error] *)
Definition ParseWith (p : ParserOperator.t) (parse : ParseFunction)
  : M (option error) :=
  let t := ParserOperator.TransformerOperator p in
  got <- callGet (ParserOperator.ParseFrom p) ;;
  match got with
  | None =>
      let err :=
        NewError
          "Entry is missing the expected parse_from field."
          "Ensure that all incoming entries contain the parse_from field."
          ["parse_from"; Field_String (ParserOperator.ParseFrom p)] in
      callHandleEntryError t err
  | Some value =>
      parsed <- callParse parse value ;;
      match parsed with
      | inl err => callHandleEntryError t err
      | inr newValue =>
          setErr <- callSet (ParserOperator.ParseTo p) newValue ;;
          match setErr with
          | Some err => callHandleEntryError t (Wrap err "set parse_to")
          | None =>
              timeParseErr <-
                parseIfConfigured KTime (ParserOperator.TimeParser p)
                  TimeParser_Parse ;;
              severityParseErr <-
                parseIfConfigured KSeverity (ParserOperator.SeverityParser p)
                  SeverityParser_Parse ;;
              traceParseErr <-
                parseIfConfigured KTrace (ParserOperator.TraceParser p)
                  TraceParser_Parse ;;
              scopeNameParserErr <-
                parseIfConfigured KScopeName (ParserOperator.ScopeNameParser p)
                  ScopeNameParser_Parse ;;
              match timeParseErr with
              | Some err => callHandleEntryError t (Wrap err "time parser")
              | None =>
              match severityParseErr with
              | Some err => callHandleEntryError t (Wrap err "severity parser")
              | None =>
              match traceParseErr with
              | Some err => callHandleEntryError t (Wrap err "trace parser")
              | None =>
              match scopeNameParserErr with
              | Some err => callHandleEntryError t (Wrap err "scope_name parser")
              | None => ret None
              end end end end
          end
      end
  end.

(** [func (p *ParserOperator) ProcessWithCallback(ctx, entry, parse, cb) error];
    [cb = None] is the nil callback. *)
Definition ProcessWithCallback (p : ParserOperator.t) (parse : ParseFunction)
    (cb : option Callback) : M (option error) :=
  let t := ParserOperator.TransformerOperator p in
  skipped <- callSkip t ;;
  match skipped with
  | inl err => callHandleEntryError t err
  | inr true => callWrite t ;; ret None
  | inr false =>
      err <- ParseWith p parse ;;
      match err with
      | Some err => ret (Some err)
      | None =>
          cbErr <-
            match cb with
            | Some f => callCallback f
            | None => ret None
            end ;;
          match cbErr with
          | Some err => ret (Some err)
          | None => callWrite t ;; ret None
          end
      end
  end.

(** [func (p *ParserOperator) ProcessWith(ctx, entry, parse) error] *)
Definition ProcessWith (p : ParserOperator.t) (parse : ParseFunction)
  : M (option error) :=
  ProcessWithCallback p parse None.
End Process.

(** ** What the properties are stated with *)

Section Observations.
Context {E : Env}.

(** What a sub-parser slot of the operator does to the entry: nothing and
    no error when it is not configured. *)
Definition outcome {P : Type} (sp : option P)
    (parse : P -> Entry -> Entry * option error) (e : Entry)
  : Entry * option error :=
  match sp with
  | Some x => parse x e
  | None => (e, None)
  end.

(** The call a configured sub-parser leaves in the log. *)
Definition ran {P : Type} (k : SubParserKind) (sp : option P) : list Event :=
  match sp with
  | Some _ => [EvSubParser k]
  | None => []
  end.

(** The sub-parser calls of one [ParseWith], in the order of the code. *)
Definition enrichment (p : ParserOperator.t) : list Event :=
  ran KTime (ParserOperator.TimeParser p)
  ++ ran KSeverity (ParserOperator.SeverityParser p)
  ++ ran KTrace (ParserOperator.TraceParser p)
  ++ ran KScopeName (ParserOperator.ScopeNameParser p).

(** The description [ParseWith] wraps a sub-parser's error with. *)
Definition subParserName (k : SubParserKind) : string :=
  match k with
  | KTime => "time parser"
  | KSeverity => "severity parser"
  | KTrace => "trace parser"
  | KScopeName => "scope_name parser"
  end.

(** The first failure in a list of sub-parser results. *)
Fixpoint first_failure (rs : list (SubParserKind * option error))
  : option (SubParserKind * error) :=
  match rs with
  | [] => None
  | (k, Some err) :: _ => Some (k, err)
  | (_, None) :: rs' => first_failure rs'
  end.

(** What the tail of [ParseWith] does with the four results. *)
Definition reconcile (t : TransformerOperator) (e : Entry)
    (rs : list (SubParserKind * option error))
  : option error * Entry * list Event :=
  match first_failure rs with
  | Some (k, err) =>
      let w := Wrap err (subParserName k) in
      (HandleEntryError t e w, e, [EvHandleEntryError e w])
  | None => (None, e, [])
  end.

(** The error [ParseWith] builds when [parse_from] is not in the entry. *)
Definition missingFieldError (f : Field) : error :=
  NewError "Entry is missing the expected parse_from field."
           "Ensure that all incoming entries contain the parse_from field."
           ["parse_from"; Field_String f].

(** The errors handed to the error policy, in order. *)
Fixpoint reported (log : list Event) : list error :=
  match log with
  | [] => []
  | EvHandleEntryError _ err :: log' => err :: reported log'
  | _ :: log' => reported log'
  end.

(** The entries [parser.go] itself forwards with [Write], in order; what
    the error policy forwards inside [HandleEntryError] is not among them. *)
Fixpoint written (log : list Event) : list Entry :=
  match log with
  | [] => []
  | EvWrite e :: log' => e :: written log'
  | _ :: log' => written log'
  end.

Definition isSubParserCall (ev : Event) : bool :=
  match ev with EvSubParser _ => true | _ => false end.

(** A configured time, severity or trace sub-parser does not pass its
    build-time check; for severity the check is [Config.Build]. *)
Definition checked_validation_fails (c : ParserConfig.t) (logger : Logger)
  : Prop :=
  (exists x err, ParserConfig.TimeParser c = Some x
                 /\ snd (TimeParser_Validate x) = Some err)
  \/ (exists x err, ParserConfig.Config c = Some x
                    /\ Config_Build x logger = inl err)
  \/ (exists x err, ParserConfig.TraceParser c = Some x
                    /\ snd (TraceParser_Validate x) = Some err).

Definition scope_name_validation_fails (c : ParserConfig.t) : Prop :=
  exists x err, ParserConfig.ScopeNameParser c = Some x
                /\ ScopeNameParser_Validate x = Some err.

(** Some configured sub-parser, of any of the four kinds, does not pass
    its validation. *)
Definition configured_validation_fails (c : ParserConfig.t) (logger : Logger)
  : Prop :=
  checked_validation_fails c logger \/ scope_name_validation_fails c.

End Observations.

(** ** A concrete pipeline stage

    A small instance of the collaborators, after the end-to-end scenario of
    the specification: the parsed value is written to the attributes root,
    the time sub-parser reads attribute [ts], the severity sub-parser maps
    attribute [level], trace and scope name come from [trace_id] and
    [scope].  It is used to run the definitions on concrete entries. *)
Module Scenario.

Inductive FieldAddr : Type :=
| NilField
| BodyField (keys : list string)
| AttributeField (keys : list string)
| ResourceField (keys : list string).

Fixpoint lookup (k : string) (m : list (string * Value)) : option Value :=
  match m with
  | [] => None
  | (k', v) :: m' => if String.eqb k k' then Some v else lookup k m'
  end.

Definition withAttributes (e : Entry) (a : list (string * Value)) : Entry :=
  mkEntry (Timestamp e) (Body e) a (Resource e)
          (Severity e) (Trace e) (ScopeName e).

Definition withBody (e : Entry) (b : Value) : Entry :=
  mkEntry (Timestamp e) b (Attributes e) (Resource e)
          (Severity e) (Trace e) (ScopeName e).

Definition withTimestamp (e : Entry) (t : Z) : Entry :=
  mkEntry (Some t) (Body e) (Attributes e) (Resource e)
          (Severity e) (Trace e) (ScopeName e).

Definition withSeverity (e : Entry) (s : SeverityLevel) : Entry :=
  mkEntry (Timestamp e) (Body e) (Attributes e) (Resource e)
          (Some s) (Trace e) (ScopeName e).

Definition withTrace (e : Entry) (t : TraceContext) : Entry :=
  mkEntry (Timestamp e) (Body e) (Attributes e) (Resource e)
          (Severity e) (Some t) (ScopeName e).

Definition withScopeName (e : Entry) (n : string) : Entry :=
  mkEntry (Timestamp e) (Body e) (Attributes e) (Resource e)
          (Severity e) (Trace e) (Some n).

Definition get (e : Entry) (f : FieldAddr) : option Value :=
  match f with
  | BodyField [] => Some (Body e)
  | AttributeField [] => Some (VMap (Attributes e))
  | AttributeField [k] => lookup k (Attributes e)
  | ResourceField [] => Some (VMap (Resource e))
  | ResourceField [k] => lookup k (Resource e)
  | _ => None
  end.

Definition set (e : Entry) (f : FieldAddr) (v : Value) : Entry * option string :=
  match f, v with
  | BodyField [], _ => (withBody e v, None)
  | AttributeField [], VMap m => (withAttributes e (m ++ Attributes e), None)
  | AttributeField [k], _ => (withAttributes e ((k, v) :: Attributes e), None)
  | _, _ => (e, Some "cannot set field")
  end.

Inductive OnError : Type := SendOnError | DropOnError.

(** The built transformer: its error policy and its [if] condition. *)
Record Transformer : Type := mkTransformer {
  OnErrorPolicy : OnError;
  IfExpr : Entry -> string + bool
}.

Definition neverSkip : Entry -> string + bool := fun _ => inr false.

(** A sub-parser that reads one attribute. *)
Record KeyParser : Type := mkKeyParser { ParseFromKey : string }.

Definition validateKey (x : KeyParser) : option string :=
  if String.eqb (ParseFromKey x) "" then Some "missing parse_from" else None.

Definition parseTime (x : KeyParser) (e : Entry) : Entry * option string :=
  match lookup (ParseFromKey x) (Attributes e) with
  | Some (VInt n) => (withTimestamp e n, None)
  | _ => (e, Some "cannot parse timestamp")
  end.

Definition parseSeverity (x : KeyParser) (e : Entry) : Entry * option string :=
  match lookup (ParseFromKey x) (Attributes e) with
  | Some (VString "ERROR") => (withSeverity e LvlError, None)
  | Some (VString "INFO") => (withSeverity e LvlInfo, None)
  | _ => (e, Some "cannot map severity")
  end.

Definition parseTrace (x : KeyParser) (e : Entry) : Entry * option string :=
  match lookup (ParseFromKey x) (Attributes e) with
  | Some (VString s) => (withTrace e (mkTrace s "" ""), None)
  | _ => (e, Some "cannot parse trace id")
  end.

Definition parseScopeName (x : KeyParser) (e : Entry) : Entry * option string :=
  match lookup (ParseFromKey x) (Attributes e) with
  | Some (VString s) => (withScopeName e s, None)
  | _ => (e, Some "parse_from field does not contain a string")
  end.

#[export] Instance env : Env := {
  error := string;
  NewError := fun description _ _ => description;
  Wrap := fun err description => (description ++ ": " ++ err)%string;
  Field := FieldAddr;
  zeroField := NilField;
  NewBodyField := BodyField;
  NewAttributeField := AttributeField;
  Field_String := fun _ => "field";
  Entry_Get := get;
  Entry_Set := set;
  Logger := unit;
  TransformerConfig := string * string;
  TransformerOperator := Transformer;
  zeroTransformerOperator := mkTransformer SendOnError neverSkip;
  NewTransformerConfig := fun operatorID operatorType => (operatorID, operatorType);
  TransformerConfig_Build := fun c _ =>
    if String.eqb (snd c) "" then inl "missing required type"
    else inr (mkTransformer SendOnError neverSkip);
  Skip := fun t e => IfExpr t e;
  HandleEntryError := fun _ _ err => Some err;
  TimeParser := KeyParser;
  TimeParser_Validate := fun x => (x, validateKey x);
  TimeParser_Parse := parseTime;
  Config := KeyParser;
  SeverityParser := KeyParser;
  Config_Build := fun c _ =>
    match validateKey c with Some err => inl err | None => inr c end;
  SeverityParser_Parse := parseSeverity;
  TraceParser := KeyParser;
  TraceParser_Validate := fun x => (x, validateKey x);
  TraceParser_Parse := parseTrace;
  ScopeNameParser := KeyParser;
  ScopeNameParser_Validate := validateKey;
  ScopeNameParser_Parse := parseScopeName
}.

(** The parse function of the scenario: a string body becomes a map with a
    timestamp, a level and the message; anything else is refused. *)
Definition parseLine : ParseFunction := fun v =>
  match v with
  | VString "1609459200 ERROR boom" =>
      inr (VMap [("ts", VInt 1609459200); ("level", VString "ERROR");
                 ("message", VString "boom")])
  | VString "soon ERROR boom" =>
      inr (VMap [("ts", VString "soon"); ("level", VString "ERROR");
                 ("trace_id", VString "0af7"); ("scope", VString "lib")])
  | VString "soon LOUD boom" =>
      inr (VMap [("ts", VString "soon"); ("level", VString "LOUD")])
  | _ => inl "malformed line"
  end.

Definition entryOf (body : Value) : Entry :=
  mkEntry None body [] [] None None None.

(** A stage with all four sub-parsers configured. *)
Definition stage : ParserOperator.t :=
  ParserOperator.mk (mkTransformer SendOnError neverSkip)
    (BodyField []) (AttributeField [])
    (Some (mkKeyParser "ts")) (Some (mkKeyParser "level"))
    (Some (mkKeyParser "trace_id")) (Some (mkKeyParser "scope")).

(** The same stage behind an [if] condition: a nil body is skipped, a
    boolean body makes the condition fail to evaluate. *)
Definition guardedStage : ParserOperator.t :=
  ParserOperator.mk
    (mkTransformer SendOnError
       (fun e => match Body e with
                 | VNil => inr true
                 | VBool _ => inl "invalid if expression"
                 | _ => inr false
                 end))
    (BodyField []) (AttributeField [])
    (Some (mkKeyParser "ts")) (Some (mkKeyParser "level"))
    (Some (mkKeyParser "trace_id")) (Some (mkKeyParser "scope")).

(** A stage with the time and severity sub-parsers only. *)
Definition timedStage : ParserOperator.t :=
  ParserOperator.mk (mkTransformer SendOnError neverSkip)
    (BodyField []) (AttributeField [])
    (Some (mkKeyParser "ts")) (Some (mkKeyParser "level")) None None.

(** A stage that reads an attribute instead of the body. *)
Definition attributeStage : ParserOperator.t :=
  ParserOperator.mk (mkTransformer SendOnError neverSkip)
    (AttributeField ["raw"]) (AttributeField [])
    (Some (mkKeyParser "ts")) None None None.

(** A configuration whose scope-name sub-parser has no [parse_from]. *)
Definition scopeOnlyConfig : ParserConfig.t :=
  ParserConfig.mk ("my_parser", "regex_parser")
    (BodyField []) (AttributeField [])
    None None None (Some (mkKeyParser "")).

(** A configuration whose trace sub-parser has no [parse_from]. *)
Definition badTraceConfig : ParserConfig.t :=
  ParserConfig.mk ("my_parser", "regex_parser")
    (BodyField []) (AttributeField [])
    (Some (mkKeyParser "ts")) (Some (mkKeyParser "level"))
    (Some (mkKeyParser "")) None.

(** A callback that refuses every entry. *)
Definition refuse : Callback := fun e => (e, Some "callback failed").

End Scenario.

(** ** More stages and configurations

    Further instances over the collaborators of [Scenario]. *)
Module Fixtures.

(** A stage whose [parse_to] cannot be written: the concrete [set] refuses
    a keyed body field. *)
Definition blockedStage : ParserOperator.t (E := Scenario.env) :=
  ParserOperator.mk (E := Scenario.env)
    (Scenario.mkTransformer Scenario.SendOnError Scenario.neverSkip)
    (Scenario.BodyField []) (Scenario.BodyField ["nested"])
    (Some (Scenario.mkKeyParser "ts")) None None None.

(** A callback that accepts the entry and names its scope. *)
Definition stamp : Callback (E := Scenario.env) :=
  fun e => (Scenario.withScopeName e "checked", None).

(** A configuration with all four sub-parsers, each with its key. *)
Definition fullConfig : ParserConfig.t (E := Scenario.env) :=
  ParserConfig.mk (E := Scenario.env) ("my_parser", "regex_parser")
    (Scenario.BodyField []) (Scenario.AttributeField [])
    (Some (Scenario.mkKeyParser "ts")) (Some (Scenario.mkKeyParser "level"))
    (Some (Scenario.mkKeyParser "trace_id")) (Some (Scenario.mkKeyParser "scope")).

(** A configuration without operator type whose time and trace sub-parsers
    have no key either. *)
Definition untypedConfig : ParserConfig.t (E := Scenario.env) :=
  ParserConfig.mk (E := Scenario.env) ("my_parser", "")
    (Scenario.BodyField []) (Scenario.AttributeField [])
    (Some (Scenario.mkKeyParser "")) None
    (Some (Scenario.mkKeyParser "")) None.





End Fixtures.

(** ** Golden files: [internal/scrapertest/golden/golden.go]

    [ReadMetrics] and [WriteMetrics] move a [pmetric.Metrics] through a file.
    The file system is a value that [ioutil.WriteFile] replaces; the JSON
    codecs of [pmetric] and [encoding/json] and the two [ioutil] functions
    are parameters. *)
Module Golden.

Definition bytes : Type := list Byte.byte.

Class Libs : Type := {
  Err : Type;
  (* pmetric *)
  Metrics : Type;
  zeroMetrics : Metrics;
  MarshalMetrics : Metrics -> Err + bytes;
  UnmarshalMetrics : bytes -> Metrics * option Err;
  (* encoding/json, on a [map[string]interface{}] *)
  JSONMap : Type;
  nilMap : JSONMap;
  json_Unmarshal : bytes -> JSONMap -> JSONMap * option Err;
  json_MarshalIndent : JSONMap -> string -> string -> Err + bytes;
  (* io/ioutil *)
  FileSystem : Type;
  ReadFile : FileSystem -> string -> Err + bytes;
  WriteFile : FileSystem -> string -> bytes -> N -> FileSystem * option Err
}.

(** The file mode [0600]. *)
Definition mode0600 : N := 384.

(** [[]byte("\n")] *)
Definition newline : bytes := [Byte.x0a].

(** [func ReadMetrics(filePath string) (pmetric.Metrics, error)] *)
Definition ReadMetrics {L : Libs} (fs : FileSystem) (filePath : string)
  : Metrics * option Err :=
  match ReadFile fs filePath with
  | inl err => (zeroMetrics, Some err)
  | inr expectedFileBytes => UnmarshalMetrics expectedFileBytes
  end.

(** [func WriteMetrics(filePath string, metrics pmetric.Metrics) error];
    the result of [json.Unmarshal] is dropped, as in the source. *)
Definition WriteMetrics {L : Libs} (fs : FileSystem) (filePath : string)
    (metrics : Metrics) : FileSystem * option Err :=
  match MarshalMetrics metrics with
  | inl err => (fs, Some err)
  | inr fileBytes =>
      let jsonVal := fst (json_Unmarshal fileBytes nilMap) in
      match json_MarshalIndent jsonVal "" "   " with
      | inl err => (fs, Some err)
      | inr b => WriteFile fs filePath (b ++ newline) mode0600
      end
  end.

(** A small instance: metrics are a number written in unary, the generic
    JSON value is the byte string itself, files live in an association
    list. *)
Module Unary.

Fixpoint lookupFile (p : string) (fs : list (string * bytes)) : option bytes :=
  match fs with
  | [] => None
  | (p', b) :: fs' => if String.eqb p p' then Some b else lookupFile p fs'
  end.

Definition isOne (b : Byte.byte) : bool :=
  match b with Byte.x31 => true | _ => false end.

#[export] Instance libs : Libs := {
  Err := string;
  Metrics := nat;
  zeroMetrics := 0;
  MarshalMetrics := fun n =>
    if Nat.ltb 3 n then inl "too many metrics" else inr (repeat Byte.x31 n);
  UnmarshalMetrics := fun b => (length (filter isOne b), None);
  JSONMap := bytes;
  nilMap := [];
  json_Unmarshal := fun b _ => (b, None);
  json_MarshalIndent := fun v _ _ => inr v;
  FileSystem := list (string * bytes);
  ReadFile := fun fs p =>
    match lookupFile p fs with
    | Some b => inr b
    | None => inl "no such file"
    end;
  WriteFile := fun fs p b _ =>
    if String.eqb p "" then (fs, Some "empty file name")
    else ((p, b) :: fs, None)
}.

End Unary.

End Golden.

(** * Properties *)

(** ** Running the sub-parsers *)

Section Enrichment.
Context {E : Env}.

Lemma parseIfConfigured_run {P : Type} (k : SubParserKind) (sp : option P)
    (parse : P -> Entry -> Entry * option error) (e e' : Entry)
    (r : option error) :
  outcome sp parse e = (e', r) ->
  parseIfConfigured k sp parse e = (r, e', ran k sp).
Proof.
  destruct sp as [x|]; cbn; intros H.
  - unfold callSubParser, mutate. rewrite H. reflexivity.
  - inversion H; subst. reflexivity.
Qed.

(** [ParseWith] once the main parse and the write went through: the four
    sub-parsers run on the entry one after the other, then the first
    failure, if any, goes to the error policy. *)
Lemma ParseWith_enrich (p : ParserOperator.t) (parse : ParseFunction)
    (e e1 e2 e3 e4 e5 : Entry) (v v2 : Value) (r1 r2 r3 r4 : option error) :
  Entry_Get e (ParserOperator.ParseFrom p) = Some v ->
  parse v = inr v2 ->
  Entry_Set e (ParserOperator.ParseTo p) v2 = (e1, None) ->
  outcome (ParserOperator.TimeParser p) TimeParser_Parse e1 = (e2, r1) ->
  outcome (ParserOperator.SeverityParser p) SeverityParser_Parse e2 = (e3, r2) ->
  outcome (ParserOperator.TraceParser p) TraceParser_Parse e3 = (e4, r3) ->
  outcome (ParserOperator.ScopeNameParser p) ScopeNameParser_Parse e4 = (e5, r4) ->
  ParseWith p parse e =
    let '(r, e', l) :=
      reconcile (ParserOperator.TransformerOperator p) e5
        [(KTime, r1); (KSeverity, r2); (KTrace, r3); (KScopeName, r4)] in
    (r, e',
     [EvGet (ParserOperator.ParseFrom p); EvParse v;
      EvSet (ParserOperator.ParseTo p) v2] ++ enrichment p ++ l).
Proof.
  intros Hget Hparse Hset H1 H2 H3 H4.
  unfold ParseWith, callGet, callParse, callSet, observe, mutate.
  cbn [bind ret Monad_M]. rewrite Hget, Hparse, Hset.
  rewrite (parseIfConfigured_run KTime _ _ _ H1).
  rewrite (parseIfConfigured_run KSeverity _ _ _ H2).
  rewrite (parseIfConfigured_run KTrace _ _ _ H3).
  rewrite (parseIfConfigured_run KScopeName _ _ _ H4).
  unfold reconcile, enrichment, callHandleEntryError.
  destruct r1, r2, r3, r4; cbn; rewrite <- ?app_assoc; reflexivity.
Qed.
End Enrichment.

(** ** Reading the log *)

Section Logs.
Context {E : Env}.

Lemma reported_app (l1 l2 : list Event) :
  reported (l1 ++ l2) = reported l1 ++ reported l2.
Proof.
  induction l1 as [|ev l1 IH]; [reflexivity|].
  destruct ev; cbn; rewrite IH; reflexivity.
Qed.

Lemma written_app (l1 l2 : list Event) :
  written (l1 ++ l2) = written l1 ++ written l2.
Proof.
  induction l1 as [|ev l1 IH]; [reflexivity|].
  destruct ev; cbn; rewrite IH; reflexivity.
Qed.

Lemma enrichment_quiet (p : ParserOperator.t) :
  reported (enrichment p) = [] /\ written (enrichment p) = []
  /\ ~ In EvCallback (enrichment p).
Proof.
  unfold enrichment.
  destruct (ParserOperator.TimeParser p), (ParserOperator.SeverityParser p),
    (ParserOperator.TraceParser p), (ParserOperator.ScopeNameParser p);
    cbn; repeat split; try reflexivity; intuition discriminate.
Qed.

Lemma reconcile_log (t : TransformerOperator) (e : Entry)
    (rs : list (SubParserKind * option error))
    (r : option error) (e' : Entry) (l : list Event) :
  reconcile t e rs = (r, e', l) ->
  e' = e /\ written l = [] /\ ~ In EvCallback l
  /\ filter isSubParserCall l = []
  /\ (r = None -> (forall x w, HandleEntryError t x w <> None) ->
      reported l = []).
Proof.
  unfold reconcile. destruct (first_failure rs) as [[k err]|]; intros H;
    inversion H; subst; cbn; repeat split; try reflexivity;
    try (intuition discriminate).
  intros Hnone Hpol. exfalso. exact (Hpol _ _ Hnone).
Qed.

(** Nothing in [ParseWith] forwards the entry or invokes a callback, and
    under an error policy that hands every error back, a [ParseWith] that
    returns no error has reported none. *)
Lemma ParseWith_log (p : ParserOperator.t) (parse : ParseFunction)
    (e e' : Entry) (r : option error) (l : list Event) :
  ParseWith p parse e = (r, e', l) ->
  written l = [] /\ ~ In EvCallback l
  /\ (r = None ->
      (forall x w, HandleEntryError (ParserOperator.TransformerOperator p) x w
                   <> None) ->
      reported l = []).
Proof.
  destruct (Entry_Get e (ParserOperator.ParseFrom p)) as [v|] eqn:Hget.
  - destruct (parse v) as [err|v2] eqn:Hparse.
    + unfold ParseWith, callGet, callParse, callHandleEntryError, observe.
      cbn [bind ret Monad_M]. rewrite Hget, Hparse.
      intros H; inversion H; subst; cbn; repeat split;
        try (intuition discriminate).
      intros Hnone Hpol. exfalso. eapply Hpol; eauto.
    + destruct (Entry_Set e (ParserOperator.ParseTo p) v2) as [e1 [err|]] eqn:Hset.
      * unfold ParseWith, callGet, callParse, callSet, callHandleEntryError,
          observe, mutate.
        cbn [bind ret Monad_M]. rewrite Hget, Hparse, Hset.
        intros H; inversion H; subst; cbn; repeat split;
          try (intuition discriminate).
        intros Hnone Hpol. exfalso. eapply Hpol; eauto.
      * destruct (outcome (ParserOperator.TimeParser p) TimeParser_Parse e1)
          as [e2 r1] eqn:H1.
        destruct (outcome (ParserOperator.SeverityParser p) SeverityParser_Parse e2)
          as [e3 r2] eqn:H2.
        destruct (outcome (ParserOperator.TraceParser p) TraceParser_Parse e3)
          as [e4 r3] eqn:H3.
        destruct (outcome (ParserOperator.ScopeNameParser p) ScopeNameParser_Parse e4)
          as [e5 r4] eqn:H4.
        rewrite (ParseWith_enrich p parse e Hget Hparse Hset H1 H2 H3 H4).
        destruct (reconcile _ e5 _) as [[r' e''] l'] eqn:Hrec.
        intros H; inversion H; subst.
        destruct (reconcile_log _ _ _ Hrec) as (_ & Hw & Hcb & _ & Hrep).
        destruct (enrichment_quiet p) as (Qr & Qw & Qcb).
        cbn [app written reported].
        rewrite !written_app, !reported_app, Qr, Qw, Hw.
        split; [reflexivity | split].
        -- cbn [In]. rewrite in_app_iff. intuition discriminate.
        -- intros Hnone Hpol. rewrite (Hrep Hnone Hpol). reflexivity.
  - unfold ParseWith, callGet, callHandleEntryError, observe.
    cbn [bind ret Monad_M]. rewrite Hget.
    intros H; inversion H; subst; cbn; repeat split;
      try (intuition discriminate).
    intros Hnone Hpol. exfalso. eapply Hpol; eauto.
Qed.

Lemma filter_enrichment (p : ParserOperator.t) :
  filter isSubParserCall (enrichment p) = enrichment p.
Proof.
  unfold enrichment.
  destruct (ParserOperator.TimeParser p), (ParserOperator.SeverityParser p),
    (ParserOperator.TraceParser p), (ParserOperator.ScopeNameParser p);
    reflexivity.
Qed.
End Logs.

(** ** Error reconciliation and enrichment in ParseWith *)

Section ParseWithProperties.
Context {E : Env}.
Variable p : ParserOperator.t.
Variable parse : ParseFunction.

Let t := ParserOperator.TransformerOperator p.

(** C1.  When the main parse and the write to [parse_to] succeed and some
    configured sub-parser fails, [ParseWith] hands exactly one error to the
    error policy: the error of the first failing sub-parser in the order
    time, severity, trace, scope name, wrapped with that sub-parser's name;
    what [ParseWith] returns is the policy's answer to it.  Failures of the
    sub-parsers after the first failing one are not reported. *)
Theorem ParseWith_reports_first_failure
    (e e1 e2 e3 e4 e5 : Entry) (v v2 : Value) (r1 r2 r3 r4 : option error)
    (k : SubParserKind) (err : error) :
  Entry_Get e (ParserOperator.ParseFrom p) = Some v ->
  parse v = inr v2 ->
  Entry_Set e (ParserOperator.ParseTo p) v2 = (e1, None) ->
  outcome (ParserOperator.TimeParser p) TimeParser_Parse e1 = (e2, r1) ->
  outcome (ParserOperator.SeverityParser p) SeverityParser_Parse e2 = (e3, r2) ->
  outcome (ParserOperator.TraceParser p) TraceParser_Parse e3 = (e4, r3) ->
  outcome (ParserOperator.ScopeNameParser p) ScopeNameParser_Parse e4 = (e5, r4) ->
  first_failure [(KTime, r1); (KSeverity, r2); (KTrace, r3); (KScopeName, r4)]
    = Some (k, err) ->
  exists log,
    ParseWith p parse e
      = (HandleEntryError t e5 (Wrap err (subParserName k)), e5, log)
    /\ reported log = [Wrap err (subParserName k)].
Proof.
  intros Hget Hparse Hset H1 H2 H3 H4 Hfirst.
  rewrite (ParseWith_enrich p parse e Hget Hparse Hset H1 H2 H3 H4).
  unfold reconcile. rewrite Hfirst. eexists. split; [reflexivity|].
  destruct (enrichment_quiet p) as (Qr & _).
  cbn [app reported]. rewrite reported_app, Qr. reflexivity.
Qed.


(** C6.  When [parse_from] is not found, [ParseWith] reads the field,
    hands the missing-field error to the error policy together with the
    entry as it came in, and returns the policy's answer; the parse
    function is not called, nothing is written, no sub-parser runs and the
    entry is left as it was. *)
Theorem ParseWith_missing_parse_from (e : Entry) :
  Entry_Get e (ParserOperator.ParseFrom p) = None ->
  ParseWith p parse e
    = (HandleEntryError t e (missingFieldError (ParserOperator.ParseFrom p)), e,
       [EvGet (ParserOperator.ParseFrom p);
        EvHandleEntryError e (missingFieldError (ParserOperator.ParseFrom p))]).
Proof.
  intros Hget. unfold ParseWith, callGet, callHandleEntryError, observe.
  cbn [bind ret Monad_M]. rewrite Hget. reflexivity.
Qed.

(** C7.  When the parse function returns an error, [ParseWith] hands that
    error to the error policy and returns the policy's answer: [parse_to]
    is not written, no sub-parser runs, the entry is left as it was. *)
Theorem ParseWith_parse_error (e : Entry) (v : Value) (err : error) :
  Entry_Get e (ParserOperator.ParseFrom p) = Some v ->
  parse v = inl err ->
  ParseWith p parse e
    = (HandleEntryError t e err, e,
       [EvGet (ParserOperator.ParseFrom p); EvParse v;
        EvHandleEntryError e err]).
Proof.
  intros Hget Hparse.
  unfold ParseWith, callGet, callParse, callHandleEntryError, observe.
  cbn [bind ret Monad_M]. rewrite Hget, Hparse. reflexivity.
Qed.
End ParseWithProperties.

(** ** The skip gate and the callback in ProcessWithCallback *)

Section ProcessProperties.
Context {E : Env}.
Variable p : ParserOperator.t.
Variable parse : ParseFunction.

Let t := ParserOperator.TransformerOperator p.

(** [ProcessWithCallback] case by case: the result of the skip gate, then
    what [ParseWith] returned, then the callback. *)
Lemma ProcessWithCallback_run (cb : option Callback) (e : Entry) :
  ProcessWithCallback p parse cb e =
    match Skip t e with
    | inl err => (HandleEntryError t e err, e, [EvSkip; EvHandleEntryError e err])
    | inr true => (None, e, [EvSkip; EvWrite e])
    | inr false =>
        let '(r, e1, l1) := ParseWith p parse e in
        match r, cb with
        | Some err, _ => (Some err, e1, EvSkip :: l1)
        | None, None => (None, e1, EvSkip :: l1 ++ [EvWrite e1])
        | None, Some f =>
            match f e1 with
            | (e2, Some err) => (Some err, e2, EvSkip :: l1 ++ [EvCallback])
            | (e2, None) => (None, e2, EvSkip :: l1 ++ [EvCallback; EvWrite e2])
            end
        end
    end.
Proof.
  unfold ProcessWithCallback, callSkip, callHandleEntryError, callCallback,
    callWrite, observe, mutate.
  cbn [bind ret Monad_M]. fold t.
  destruct (Skip t e) as [err|[|]]; [reflexivity | reflexivity |].
  destruct (ParseWith p parse e) as [[[err|] e1] l1].
  - cbn. rewrite app_nil_r. reflexivity.
  - destruct cb as [f|]; [|reflexivity].
    destruct (f e1) as [e2 [err|]]; reflexivity.
Qed.

(** C5.  When the skip condition evaluates to true, [ProcessWithCallback]
    evaluates the condition, forwards the entry exactly as it came in and
    returns no error: [parse_from] is not read, [parse_to] is not written,
    the parse function, the sub-parsers and the callback are not called. *)
Theorem ProcessWithCallback_skip (cb : option Callback) (e : Entry) :
  Skip t e = inr true ->
  ProcessWithCallback p parse cb e = (None, e, [EvSkip; EvWrite e]).
Proof.
  intros Hskip. rewrite ProcessWithCallback_run, Hskip. reflexivity.
Qed.

(** C9.  When evaluating the skip condition fails, [ProcessWithCallback]
    hands that error to the error policy and returns the policy's answer;
    the parse function, the field accesses, the sub-parsers and the
    callback do not run, and the code itself does not forward the entry. *)
Theorem ProcessWithCallback_skip_error (cb : option Callback) (e : Entry)
    (err : error) :
  Skip t e = inl err ->
  ProcessWithCallback p parse cb e
    = (HandleEntryError t e err, e, [EvSkip; EvHandleEntryError e err]).
Proof.
  intros Hskip. rewrite ProcessWithCallback_run, Hskip. reflexivity.
Qed.

(** C3.  The callback is invoked only when the skip gate let the entry
    through, [ParseWith] returned no error and a callback was supplied.
    When the callback then returns an error, [ProcessWithCallback] returns
    that very error and stops: the callback is its last call, the entry is
    not forwarded, and the error policy has seen nothing beyond what
    [ParseWith] itself reported, which is nothing at all when the policy
    hands every error back. *)
Theorem ProcessWithCallback_callback_error (cb : option Callback)
    (e e' : Entry) (res : option error) (log : list Event) :
  ProcessWithCallback p parse cb e = (res, e', log) ->
  (In EvCallback log ->
   Skip t e = inr false
   /\ fst (fst (ParseWith p parse e)) = None
   /\ cb <> None)
  /\ (forall (f : Callback) (e1 e2 : Entry) (l1 : list Event) (err : error),
        Skip t e = inr false ->
        ParseWith p parse e = (None, e1, l1) ->
        cb = Some f ->
        f e1 = (e2, Some err) ->
        res = Some err /\ e' = e2
        /\ log = EvSkip :: l1 ++ [EvCallback]
        /\ written log = []
        /\ reported log = reported l1
        /\ ((forall x w, HandleEntryError t x w <> None) -> reported log = [])).
Proof.
  rewrite ProcessWithCallback_run. intros Hrun. split.
  - intros Hin.
    destruct (Skip t e) as [err|[|]].
    + inversion Hrun; subst. cbn in Hin. intuition discriminate.
    + inversion Hrun; subst. cbn in Hin. intuition discriminate.
    + destruct (ParseWith p parse e) as [[r e1] l1] eqn:Hpw.
      destruct (ParseWith_log p parse e Hpw) as (_ & Hcb & _).
      destruct r as [err|]; [|destruct cb as [f|]].
      * inversion Hrun; subst. cbn in Hin. intuition discriminate.
      * split; [reflexivity | split; [reflexivity | discriminate]].
      * inversion Hrun; subst. cbn in Hin. rewrite in_app_iff in Hin.
        cbn in Hin. intuition discriminate.
  - intros f e1 e2 l1 err Hskip Hpw -> Hf.
    rewrite Hskip, Hpw, Hf in Hrun.
    inversion Hrun; subst.
    destruct (ParseWith_log p parse e Hpw) as (Hw & _ & Hrep).
    repeat split.
    + cbn [written]. rewrite written_app, Hw. reflexivity.
    + cbn [reported]. rewrite reported_app. cbn. apply app_nil_r.
    + intros Hpol. cbn [reported]. rewrite reported_app.
      rewrite (Hrep eq_refl Hpol). reflexivity.
Qed.
End ProcessProperties.

(** ** Defaults and construction *)

Section BuildProperties.
Context {E : Env}.

(** C8.  [NewParserConfig] reads from the whole body (the body field with
    no keys) and writes to the attributes root (the attribute field with no
    keys); it configures no sub-parser. *)
Theorem NewParserConfig_defaults (operatorID operatorType : string) :
  ParserConfig.ParseFrom (NewParserConfig operatorID operatorType)
    = NewBodyField []
  /\ ParserConfig.ParseTo (NewParserConfig operatorID operatorType)
     = NewAttributeField []
  /\ ParserConfig.TransformerConfig (NewParserConfig operatorID operatorType)
     = NewTransformerConfig operatorID operatorType
  /\ ParserConfig.TimeParser (NewParserConfig operatorID operatorType) = None
  /\ ParserConfig.Config (NewParserConfig operatorID operatorType) = None
  /\ ParserConfig.TraceParser (NewParserConfig operatorID operatorType) = None
  /\ ParserConfig.ScopeNameParser (NewParserConfig operatorID operatorType)
     = None.
Proof. repeat split. Qed.

(** [buildSubParsers] succeeds exactly when the time and trace validations
    and the severity build do, and then fills the four sub-parser fields
    and nothing else: time and trace as [Validate] left them, severity as
    built, scope name as configured. *)
Lemma buildSubParsers_inr (c : ParserConfig.t) (logger : Logger)
    (op0 op : ParserOperator.t) :
  buildSubParsers c logger op0 = inr op <->
  (forall x, ParserConfig.TimeParser c = Some x ->
             snd (TimeParser_Validate x) = None)
  /\ (forall x, ParserConfig.TraceParser c = Some x ->
                snd (TraceParser_Validate x) = None)
  /\ (exists sev,
        match ParserConfig.Config c with
        | Some x => exists sp, Config_Build x logger = inr sp /\ sev = Some sp
        | None => sev = ParserOperator.SeverityParser op0
        end
        /\ op = ParserOperator.mk
                  (ParserOperator.TransformerOperator op0)
                  (ParserOperator.ParseFrom op0) (ParserOperator.ParseTo op0)
                  (match ParserConfig.TimeParser c with
                   | Some x => Some (fst (TimeParser_Validate x))
                   | None => ParserOperator.TimeParser op0
                   end)
                  sev
                  (match ParserConfig.TraceParser c with
                   | Some x => Some (fst (TraceParser_Validate x))
                   | None => ParserOperator.TraceParser op0
                   end)
                  (match ParserConfig.ScopeNameParser c with
                   | Some x => Some x
                   | None => ParserOperator.ScopeNameParser op0
                   end)).
Proof.
  unfold buildSubParsers, setTimeParser, setSeverityParser, setTraceParser,
    setScopeNameParser.
  destruct op0 as [t0 pf pt tp0 sp0 tr0 sn0].
  destruct c as [tc cpf cpt [tp|] [sc|] [tr|] [sn|]]; cbn;
    repeat match goal with
           | |- context [TimeParser_Validate ?x] =>
               destruct (TimeParser_Validate x) as [? [?|]] eqn:?
           | |- context [TraceParser_Validate ?x] =>
               destruct (TraceParser_Validate x) as [? [?|]] eqn:?
           | |- context [Config_Build ?x ?l] =>
               destruct (Config_Build x l) eqn:?
           end; cbn.
  all: split;
    [ intros H;
      first
        [ discriminate H
        | inversion H; subst; clear H;
          split;
          [ intros x Hx;
            first [discriminate Hx
                  | inversion Hx; subst;
                    match goal with Hv : _ = (_, _) |- _ => rewrite Hv end;
                    reflexivity]
          | split;
            [ intros x Hx;
              first [discriminate Hx
                    | inversion Hx; subst;
                      match goal with
                      | Hv : TraceParser_Validate _ = _ |- _ => rewrite Hv
                      end;
                      reflexivity]
            | eexists; split;
              [ first [reflexivity | eexists; split; reflexivity]
              | reflexivity ] ] ] ]
    | intros (Ht & Htr & sev & Hsev & ->);
      try (specialize (Ht _ eq_refl)); try (specialize (Htr _ eq_refl));
      try (destruct Hsev as (sp' & Hsp & ->)); subst;
      repeat match goal with
             | Hv : ?f = (_, _), H : context [?f] |- _ => rewrite Hv in H
             end;
      cbn in *; congruence ].
Qed.

Lemma Build_inr (c : ParserConfig.t) (logger : Logger) (op : ParserOperator.t) :
  Build c logger = (op, None) <->
  exists t,
    TransformerConfig_Build (ParserConfig.TransformerConfig c) logger = inr t
    /\ buildSubParsers c logger
         (ParserOperator.mk t (ParserConfig.ParseFrom c) (ParserConfig.ParseTo c)
                            None None None None)
       = inr op.
Proof.
  unfold Build.
  destruct (TransformerConfig_Build _ logger) as [err|t].
  - split; [discriminate | intros (t & Ht & _); discriminate].
  - destruct (buildSubParsers _ _ _) as [err|op'] eqn:Hsub.
    + split; [discriminate|]. intros (t' & Ht & Hop).
      inversion Ht; subst. congruence.
    + split.
      * intros H; inversion H; subst. exists t. split; [reflexivity | exact Hsub].
      * intros (t' & Ht & Hop). inversion Ht; subst. congruence.
Qed.

Lemma Build_total (c : ParserConfig.t) (logger : Logger) :
  (exists op, Build c logger = (op, None))
  \/ (exists err, Build c logger = (zeroParserOperator, Some err)).
Proof.
  unfold Build.
  destruct (TransformerConfig_Build _ logger) as [err|t]; [right; eauto|].
  destruct (buildSubParsers _ _ _) as [err|op]; [right | left]; eauto.
Qed.

(** C10.  Whenever [Build] returns an error, the operator it returns with
    it is the zero value [ParserOperator{}]. *)
Theorem Build_failure_returns_zero (c : ParserConfig.t) (logger : Logger)
    (op : ParserOperator.t) (err : error) :
  Build c logger = (op, Some err) -> op = zeroParserOperator.
Proof.
  intros H. destruct (Build_total c logger) as [[op' H']|[err' H']];
    rewrite H' in H; inversion H; reflexivity.
Qed.

End BuildProperties.

(** ** Every path through ParseWith *)

Section ParseWithPaths.
Context {E : Env}.
Variable p : ParserOperator.t.
Variable parse : ParseFunction.

Local Abbreviation t := (ParserOperator.TransformerOperator p).
Local Abbreviation from := (ParserOperator.ParseFrom p).
Local Abbreviation to := (ParserOperator.ParseTo p).

(** The four ways through [ParseWith]: [parse_from] missing, the parse
    function failing, the write to [parse_to] failing, and the enrichment
    that follows a successful write. *)
Lemma ParseWith_paths (e : Entry) :
  (Entry_Get e from = None
   /\ ParseWith p parse e
      = (HandleEntryError t e (missingFieldError from), e,
         [EvGet from; EvHandleEntryError e (missingFieldError from)]))
  \/ (exists v err,
        Entry_Get e from = Some v /\ parse v = inl err
        /\ ParseWith p parse e
           = (HandleEntryError t e err, e,
              [EvGet from; EvParse v; EvHandleEntryError e err]))
  \/ (exists v v2 e1 err,
        Entry_Get e from = Some v /\ parse v = inr v2
        /\ Entry_Set e to v2 = (e1, Some err)
        /\ ParseWith p parse e
           = (HandleEntryError t e1 (Wrap err "set parse_to"), e1,
              [EvGet from; EvParse v; EvSet to v2;
               EvHandleEntryError e1 (Wrap err "set parse_to")]))
  \/ (exists v v2 e1 e5 rs,
        Entry_Get e from = Some v /\ parse v = inr v2
        /\ Entry_Set e to v2 = (e1, None)
        /\ ParseWith p parse e
           = (let '(r, e', l) := reconcile t e5 rs in
              (r, e', [EvGet from; EvParse v; EvSet to v2] ++ enrichment p ++ l))).
Proof.
  destruct (Entry_Get e from) as [v|] eqn:Hget.
  - right. destruct (parse v) as [err|v2] eqn:Hparse.
    + left. exists v, err. repeat split; try assumption.
      unfold ParseWith, callGet, callParse, callHandleEntryError, observe.
      cbn [bind ret Monad_M]. rewrite Hget, Hparse. reflexivity.
    + right. destruct (Entry_Set e to v2) as [e1 [err|]] eqn:Hset.
      * left. exists v, v2, e1, err. repeat split; try assumption.
        unfold ParseWith, callGet, callParse, callSet, callHandleEntryError,
          observe, mutate.
        cbn [bind ret Monad_M]. rewrite Hget, Hparse, Hset.
        reflexivity.
      * right.
        destruct (outcome (ParserOperator.TimeParser p) TimeParser_Parse e1)
          as [e2 r1] eqn:H1.
        destruct (outcome (ParserOperator.SeverityParser p) SeverityParser_Parse e2)
          as [e3 r2] eqn:H2.
        destruct (outcome (ParserOperator.TraceParser p) TraceParser_Parse e3)
          as [e4 r3] eqn:H3.
        destruct (outcome (ParserOperator.ScopeNameParser p) ScopeNameParser_Parse e4)
          as [e5 r4] eqn:H4.
        exists v, v2, e1, e5,
          [(KTime, r1); (KSeverity, r2); (KTrace, r3); (KScopeName, r4)].
        repeat split; try assumption.
        exact (ParseWith_enrich p parse e Hget Hparse Hset H1 H2 H3 H4).
  - left. split; [reflexivity|].
    unfold ParseWith, callGet, callHandleEntryError, observe.
    cbn [bind ret Monad_M]. rewrite Hget. reflexivity.
Qed.

(** X1.  When the write to [parse_to] fails, [ParseWith] wraps the error with
    "set parse_to", hands it to the error policy with the entry as [Set]
    left it and returns the policy's answer; no sub-parser runs. *)
Theorem ParseWith_set_error (e e1 : Entry) (v v2 : Value) (err : error) :
  Entry_Get e from = Some v ->
  parse v = inr v2 ->
  Entry_Set e to v2 = (e1, Some err) ->
  ParseWith p parse e
    = (HandleEntryError t e1 (Wrap err "set parse_to"), e1,
       [EvGet from; EvParse v; EvSet to v2;
        EvHandleEntryError e1 (Wrap err "set parse_to")]).
Proof.
  intros Hget Hparse Hset.
  unfold ParseWith, callGet, callParse, callSet, callHandleEntryError,
    observe, mutate.
  cbn [bind ret Monad_M]. rewrite Hget, Hparse, Hset.
  reflexivity.
Qed.

(** X2.  When the main parse and the write succeed and no configured sub-parser
    fails, [ParseWith] returns no error, reports nothing to the error policy
    and leaves the entry as the last sub-parser left it. *)
Theorem ParseWith_success
    (e e1 e2 e3 e4 e5 : Entry) (v v2 : Value) :
  Entry_Get e from = Some v ->
  parse v = inr v2 ->
  Entry_Set e to v2 = (e1, None) ->
  outcome (ParserOperator.TimeParser p) TimeParser_Parse e1 = (e2, None) ->
  outcome (ParserOperator.SeverityParser p) SeverityParser_Parse e2 = (e3, None) ->
  outcome (ParserOperator.TraceParser p) TraceParser_Parse e3 = (e4, None) ->
  outcome (ParserOperator.ScopeNameParser p) ScopeNameParser_Parse e4 = (e5, None) ->
  ParseWith p parse e
    = (None, e5, [EvGet from; EvParse v; EvSet to v2] ++ enrichment p)
  /\ reported ([EvGet from; EvParse v; EvSet to v2] ++ enrichment p) = [].
Proof.
  intros Hget Hparse Hset H1 H2 H3 H4.
  rewrite (ParseWith_enrich p parse e Hget Hparse Hset H1 H2 H3 H4).
  cbn [reconcile first_failure]. rewrite app_nil_r. split; [reflexivity|].
  cbn [app reported]. apply (enrichment_quiet p).
Qed.

(** X3.  Whatever the entry, [ParseWith] reports at most one error to the error
    policy; when it reports one, that is its last call and its result is the
    policy's answer, and otherwise it returns no error.  [ParseWith] itself
    makes no [Write] call and invokes no callback: if the entry is forwarded
    while [ParseWith] runs, the error policy does it inside
    [HandleEntryError]. *)
Theorem ParseWith_reports_at_most_once
    (e e' : Entry) (r : option error) (log : list Event) :
  ParseWith p parse e = (r, e', log) ->
  written log = []
  /\ ~ In EvCallback log
  /\ ((r = None /\ reported log = [])
      \/ (exists w pre,
            log = pre ++ [EvHandleEntryError e' w]
            /\ reported log = [w]
            /\ r = HandleEntryError t e' w)).
Proof.
  intros Hrun.
  destruct (ParseWith_log p parse e Hrun) as (Hw & Hcb & _).
  split; [exact Hw|]. split; [exact Hcb|].
  destruct (ParseWith_paths e)
    as [(_ & H)|[(v & err & _ & _ & H)|[(v & v2 & e1 & err & _ & _ & _ & H)
        |(v & v2 & e1 & e5 & rs & _ & _ & _ & H)]]];
    rewrite H in Hrun.
  - inversion Hrun; subst. right.
    exists (missingFieldError from), [EvGet from]. repeat split.
  - inversion Hrun; subst. right.
    exists err, [EvGet from; EvParse v]. repeat split.
  - inversion Hrun; subst. right.
    exists (Wrap err "set parse_to"), [EvGet from; EvParse v; EvSet to v2].
    repeat split.
  - unfold reconcile in Hrun.
    destruct (enrichment_quiet p) as (Qr & _).
    destruct (first_failure rs) as [[k err]|]; inversion Hrun; subst.
    + right. exists (Wrap err (subParserName k)),
        ([EvGet from; EvParse v; EvSet to v2] ++ enrichment p).
      split; [rewrite <- app_assoc; reflexivity|]. split; [|reflexivity].
      cbn [app reported]. rewrite reported_app, Qr. reflexivity.
    + left. split; [reflexivity|].
      cbn [app reported]. rewrite reported_app, Qr. reflexivity.
Qed.

(** X4.  No sub-parser runs unless [parse_from] was found, the parse function
    succeeded and the write to [parse_to] succeeded. *)
Theorem ParseWith_enriches_only_after_write
    (e e' : Entry) (r : option error) (log : list Event) (k : SubParserKind) :
  ParseWith p parse e = (r, e', log) ->
  In (EvSubParser k) log ->
  exists v v2 e1,
    Entry_Get e from = Some v /\ parse v = inr v2
    /\ Entry_Set e to v2 = (e1, None).
Proof.
  intros Hrun Hin.
  destruct (ParseWith_paths e)
    as [(_ & H)|[(v & err & _ & _ & H)|[(v & v2 & e1 & err & _ & _ & _ & H)
        |(v & v2 & e1 & e5 & rs & Hget & Hparse & Hset & _)]]];
    try (rewrite H in Hrun; inversion Hrun; subst; cbn in Hin;
         exfalso; intuition discriminate).
  exists v, v2, e1. repeat split; assumption.
Qed.
End ParseWithPaths.

(** ** Forwarding in ProcessWithCallback and ProcessWith *)

Section Forwarding.
Context {E : Env}.
Variable p : ParserOperator.t.
Variable parse : ParseFunction.

Local Abbreviation t := (ParserOperator.TransformerOperator p).

(** X5.  When [ParseWith] returns an error, [ProcessWithCallback] returns that
    error at once: the callback is not invoked and the code does not forward
    the entry. *)
Theorem ProcessWithCallback_ParseWith_error (cb : option Callback)
    (e e1 : Entry) (err : error) (l1 : list Event) :
  Skip t e = inr false ->
  ParseWith p parse e = (Some err, e1, l1) ->
  ProcessWithCallback p parse cb e = (Some err, e1, EvSkip :: l1)
  /\ written (EvSkip :: l1) = []
  /\ ~ In EvCallback (EvSkip :: l1).
Proof.
  intros Hskip Hpw. rewrite ProcessWithCallback_run, Hskip, Hpw.
  destruct (ParseWith_log p parse e Hpw) as (Hw & Hcb & _).
  split; [reflexivity|]. split; [exact Hw|].
  cbn [In]. intuition discriminate.
Qed.

(** X6.  When [ParseWith] returns no error and the callback accepts the entry,
    the callback runs on the entry as [ParseWith] left it, the entry is
    forwarded as the callback left it, once and as the last call, and the
    result is nil. *)
Theorem ProcessWithCallback_forwards_after_callback (f : Callback)
    (e e1 e2 : Entry) (l1 : list Event) :
  Skip t e = inr false ->
  ParseWith p parse e = (None, e1, l1) ->
  f e1 = (e2, None) ->
  ProcessWithCallback p parse (Some f) e
    = (None, e2, EvSkip :: l1 ++ [EvCallback; EvWrite e2])
  /\ written (EvSkip :: l1 ++ [EvCallback; EvWrite e2]) = [e2].
Proof.
  intros Hskip Hpw Hf. rewrite ProcessWithCallback_run, Hskip, Hpw, Hf.
  destruct (ParseWith_log p parse e Hpw) as (Hw & _).
  split; [reflexivity|].
  cbn [written]. rewrite written_app, Hw. reflexivity.
Qed.

(** X7.  [ProcessWith] past the skip gate: when [ParseWith] returns no error the
    entry is forwarded as [ParseWith] left it, once and as the last call,
    without any callback; when it returns an error, that error is returned
    and nothing is forwarded. *)
Theorem ProcessWith_forwards_parsed_entry
    (e e1 : Entry) (r : option error) (l1 : list Event) :
  Skip t e = inr false ->
  ParseWith p parse e = (r, e1, l1) ->
  ProcessWith p parse e
    = match r with
      | None => (None, e1, EvSkip :: l1 ++ [EvWrite e1])
      | Some err => (Some err, e1, EvSkip :: l1)
      end
  /\ ~ In EvCallback (snd (ProcessWith p parse e))
  /\ written (snd (ProcessWith p parse e))
     = match r with None => [e1] | Some _ => [] end.
Proof.
  intros Hskip Hpw. unfold ProcessWith.
  rewrite ProcessWithCallback_run, Hskip, Hpw.
  destruct (ParseWith_log p parse e Hpw) as (Hw & Hcb & _).
  destruct r as [err|]; cbn [snd].
  - split; [reflexivity|]. split; [|exact Hw].
    cbn [In]. intuition discriminate.
  - split; [reflexivity|]. split.
    + cbn [In]. rewrite in_app_iff. cbn [In]. intuition discriminate.
    + cbn [written]. rewrite written_app, Hw. reflexivity.
Qed.

(** X8.  Whatever the entry and the callback, [ProcessWithCallback] itself
    calls [Write] at most once; when it does, that call is its last, the
    entry it forwards is the one it leaves behind, and the result is nil.
    A forward that the error policy makes inside [HandleEntryError] is not
    one of these calls. *)
Theorem ProcessWithCallback_forwards_at_most_once (cb : option Callback)
    (e e' : Entry) (res : option error) (log : list Event) :
  ProcessWithCallback p parse cb e = (res, e', log) ->
  written log = []
  \/ (res = None
      /\ exists pre, log = pre ++ [EvWrite e'] /\ written pre = []
                     /\ written log = [e']).
Proof.
  rewrite ProcessWithCallback_run. intros Hrun.
  destruct (Skip t e) as [err|[|]].
  - inversion Hrun; subst. left. reflexivity.
  - inversion Hrun; subst. right. split; [reflexivity|].
    exists [EvSkip]. repeat split.
  - destruct (ParseWith p parse e) as [[r e1] l1] eqn:Hpw.
    destruct (ParseWith_log p parse e Hpw) as (Hw & _).
    destruct r as [err|]; [|destruct cb as [f|]].
    + inversion Hrun; subst. left. exact Hw.
    + destruct (f e1) as [e2 [err|]]; inversion Hrun; subst.
      * left. cbn [written]. rewrite written_app, Hw. reflexivity.
      * right. split; [reflexivity|].
        exists (EvSkip :: l1 ++ [EvCallback]).
        split; [cbn [app]; rewrite <- app_assoc; reflexivity|].
        split; cbn [written]; rewrite written_app, Hw; reflexivity.
    + inversion Hrun; subst. right. split; [reflexivity|].
      exists (EvSkip :: l1). split; [reflexivity|].
      split; cbn [written]; [exact Hw | rewrite written_app, Hw; reflexivity].
Qed.

(** X9.  Under an error policy that hands every error back, [ProcessWithCallback]
    returns nil exactly when it forwarded the entry itself, and then nothing
    was reported to the error policy. *)
Theorem ProcessWithCallback_nil_iff_forwarded (cb : option Callback)
    (e e' : Entry) (res : option error) (log : list Event) :
  (forall x w, HandleEntryError t x w <> None) ->
  ProcessWithCallback p parse cb e = (res, e', log) ->
  (res = None <-> written log = [e'])
  /\ (res = None -> reported log = []).
Proof.
  intros Hpol. rewrite ProcessWithCallback_run. intros Hrun.
  destruct (Skip t e) as [err|[|]] eqn:Hskip.
  - inversion Hrun; subst. split.
    + split; [intros H; exfalso; exact (Hpol _ _ H) | discriminate].
    + intros H. exfalso. exact (Hpol _ _ H).
  - inversion Hrun; subst. repeat split.
  - destruct (ParseWith p parse e) as [[r e1] l1] eqn:Hpw.
    destruct (ParseWith_log p parse e Hpw) as (Hw & _ & Hrep).
    destruct r as [err|]; [|destruct cb as [f|]].
    + inversion Hrun; subst. split.
      * split; [discriminate|]. cbn [written]. rewrite Hw. discriminate.
      * discriminate.
    + specialize (Hrep eq_refl Hpol).
      destruct (f e1) as [e2 [err|]]; inversion Hrun; subst.
      * split; [|discriminate]. split; [discriminate|].
        cbn [written]. rewrite written_app, Hw. discriminate.
      * split.
        -- split; [|reflexivity]. intros _.
           cbn [written]. rewrite written_app, Hw. reflexivity.
        -- intros _. cbn [reported]. rewrite reported_app, Hrep. reflexivity.
    + specialize (Hrep eq_refl Hpol). inversion Hrun; subst. split.
      * split; [|reflexivity]. intros _.
        cbn [written]. rewrite written_app, Hw. reflexivity.
      * intros _. cbn [reported]. rewrite reported_app, Hrep. reflexivity.
Qed.
End Forwarding.

(** ** The order of the checks in Build *)

Section BuildOrder.
Context {E : Env}.

(** X10.  A default configuration fails to build only when its transformer
    configuration does, with the transformer's error; otherwise the operator
    reads the whole body, writes to the attributes root and runs no
    sub-parser. *)
Theorem Build_default_config (operatorID operatorType : string)
    (logger : Logger) :
  Build (NewParserConfig operatorID operatorType) logger
    = match TransformerConfig_Build
              (NewTransformerConfig operatorID operatorType) logger with
      | inl err => (zeroParserOperator, Some err)
      | inr t =>
          (ParserOperator.mk t (NewBodyField []) (NewAttributeField [])
                             None None None None,
           None)
      end
  /\ forall op, Build (NewParserConfig operatorID operatorType) logger = (op, None) ->
                enrichment op = [].
Proof.
  unfold Build, NewParserConfig. cbn.
  destruct (TransformerConfig_Build _ logger) as [err|t];
    (split; [reflexivity|]); intros op H; inversion H; reflexivity.
Qed.

(** X11.  [Build] returns the error of the first failing check in the order
    transformer, time, severity, trace, as that check gave it; a failure of
    a later check does not change it. *)
Theorem Build_first_failing_check (c : ParserConfig.t) (logger : Logger) :
  (forall err,
     TransformerConfig_Build (ParserConfig.TransformerConfig c) logger = inl err ->
     Build c logger = (zeroParserOperator, Some err))
  /\ (forall t x err,
        TransformerConfig_Build (ParserConfig.TransformerConfig c) logger = inr t ->
        ParserConfig.TimeParser c = Some x ->
        snd (TimeParser_Validate x) = Some err ->
        Build c logger = (zeroParserOperator, Some err))
  /\ (forall t x err,
        TransformerConfig_Build (ParserConfig.TransformerConfig c) logger = inr t ->
        (forall y, ParserConfig.TimeParser c = Some y ->
                   snd (TimeParser_Validate y) = None) ->
        ParserConfig.Config c = Some x ->
        Config_Build x logger = inl err ->
        Build c logger = (zeroParserOperator, Some err))
  /\ (forall t x err,
        TransformerConfig_Build (ParserConfig.TransformerConfig c) logger = inr t ->
        (forall y, ParserConfig.TimeParser c = Some y ->
                   snd (TimeParser_Validate y) = None) ->
        (forall y, ParserConfig.Config c = Some y ->
                   exists sp, Config_Build y logger = inr sp) ->
        ParserConfig.TraceParser c = Some x ->
        snd (TraceParser_Validate x) = Some err ->
        Build c logger = (zeroParserOperator, Some err)).
Proof.
  unfold Build, buildSubParsers.
  destruct c as [tc pf pt tp sc tr sn]; cbn.
  split; [|split; [|split]].
  - intros err Ht. rewrite Ht. reflexivity.
  - intros t x err Ht -> Hv. rewrite Ht.
    destruct (TimeParser_Validate x) as [x' r]. cbn in Hv. subst r.
    reflexivity.
  - intros t x err Ht Htime -> Hb. rewrite Ht.
    destruct tp as [y|];
      [ specialize (Htime y eq_refl);
        destruct (TimeParser_Validate y) as [y' r]; cbn in Htime; subst r |];
      cbn; rewrite Hb; reflexivity.
  - intros t x err Ht Htime Hsev -> Hv. rewrite Ht.
    destruct (TraceParser_Validate x) as [x' r']. cbn in Hv. subst r'.
    destruct tp as [y|];
      [ specialize (Htime y eq_refl);
        destruct (TimeParser_Validate y) as [y' r]; cbn in Htime; subst r |];
      cbn;
      (destruct sc as [z|]; [destruct (Hsev z eq_refl) as (sp & ->)|]); cbn;
      reflexivity.
Qed.

(** The sub-parsers of an operator that [Build] returns are those of the
    kinds its configuration configures. *)
Lemma Build_enrichment (c : ParserConfig.t) (logger : Logger)
    (op : ParserOperator.t) :
  Build c logger = (op, None) ->
  ParserOperator.ParseFrom op = ParserConfig.ParseFrom c
  /\ ParserOperator.ParseTo op = ParserConfig.ParseTo c
  /\ enrichment op
     = ran KTime (ParserConfig.TimeParser c)
       ++ ran KSeverity (ParserConfig.Config c)
       ++ ran KTrace (ParserConfig.TraceParser c)
       ++ ran KScopeName (ParserConfig.ScopeNameParser c).
Proof.
  intros H. apply Build_inr in H. destruct H as (t & _ & Hsub).
  apply buildSubParsers_inr in Hsub.
  destruct Hsub as (_ & _ & sev & Hsev & ->). unfold enrichment. cbn.
  split; [reflexivity|]. split; [reflexivity|].
  destruct (ParserConfig.TimeParser c), (ParserConfig.Config c) as [x|],
    (ParserConfig.TraceParser c), (ParserConfig.ScopeNameParser c);
    try (destruct Hsev as (sp & _ & ->)); subst; reflexivity.
Qed.

(** X12.  When [Build] succeeds and, on an entry, the [parse_from] of the
    configuration is found, the parse function succeeds and the write to the
    [parse_to] of the configuration succeeds, [ParseWith] on the built
    operator calls a sub-parser for exactly the kinds the configuration
    configures, scope name included, each once and in the order time,
    severity, trace, scope name. *)
Theorem Build_runs_configured_kinds (c : ParserConfig.t) (logger : Logger)
    (op : ParserOperator.t) (parse : ParseFunction)
    (e e1 e' : Entry) (v v2 : Value) (r : option error) (log : list Event) :
  Build c logger = (op, None) ->
  Entry_Get e (ParserConfig.ParseFrom c) = Some v ->
  parse v = inr v2 ->
  Entry_Set e (ParserConfig.ParseTo c) v2 = (e1, None) ->
  ParseWith op parse e = (r, e', log) ->
  filter isSubParserCall log
    = ran KTime (ParserConfig.TimeParser c)
      ++ ran KSeverity (ParserConfig.Config c)
      ++ ran KTrace (ParserConfig.TraceParser c)
      ++ ran KScopeName (ParserConfig.ScopeNameParser c).
Proof.
  intros Hb Hget Hparse Hset Hrun.
  destruct (Build_enrichment c logger Hb) as (Hfrom & Hto & <-).
  rewrite <- Hfrom in Hget. rewrite <- Hto in Hset.
  destruct (outcome (ParserOperator.TimeParser op) TimeParser_Parse e1)
    as [e2 r1] eqn:H1.
  destruct (outcome (ParserOperator.SeverityParser op) SeverityParser_Parse e2)
    as [e3 r2] eqn:H2.
  destruct (outcome (ParserOperator.TraceParser op) TraceParser_Parse e3)
    as [e4 r3] eqn:H3.
  destruct (outcome (ParserOperator.ScopeNameParser op) ScopeNameParser_Parse e4)
    as [e5 r4] eqn:H4.
  rewrite (ParseWith_enrich op parse e Hget Hparse Hset H1 H2 H3 H4) in Hrun.
  destruct (reconcile _ e5 _) as [[r' e''] l] eqn:Hrec.
  destruct (reconcile_log _ _ _ Hrec) as (_ & _ & _ & Hsub & _).
  inversion Hrun; subst.
  cbn [app filter isSubParserCall].
  rewrite filter_app, filter_enrichment, Hsub. apply app_nil_r.
Qed.
End BuildOrder.

(** ** Golden files *)

Section GoldenProperties.
Context {L : Golden.Libs}.

(** X13.  [WriteMetrics] either fails before it writes and leaves the file system
    untouched, or its effect and result are those of a single [WriteFile] on
    the given path, with mode 0600 and a content that ends with a newline. *)
Theorem WriteMetrics_writes_once_or_not (fs : Golden.FileSystem)
    (filePath : string) (metrics : Golden.Metrics) :
  (exists err, Golden.WriteMetrics fs filePath metrics = (fs, Some err))
  \/ (exists b,
        Golden.WriteMetrics fs filePath metrics
        = Golden.WriteFile fs filePath (b ++ [Byte.x0a]) 384%N).
Proof.
  unfold Golden.WriteMetrics.
  destruct (Golden.MarshalMetrics metrics) as [err|fileBytes]; [left; eauto|].
  destruct (Golden.json_MarshalIndent _ _ _) as [err|b]; [left; eauto|].
  right. exists b. reflexivity.
Qed.

(** X14.  Write then read.  When the file system gives back what was written,
    marshalled metrics are JSON that [json.Unmarshal] accepts, re-indenting
    that JSON and ending it with a newline does not change what
    [UnmarshalMetrics] reads, and [UnmarshalMetrics] inverts
    [MarshalMetrics], then [ReadMetrics] returns the metrics a successful
    [WriteMetrics] wrote to the same path. *)
Theorem ReadMetrics_after_WriteMetrics (fs fs' : Golden.FileSystem)
    (filePath : string) (metrics : Golden.Metrics) :
  (forall s p b perm s',
     Golden.WriteFile s p b perm = (s', None) -> Golden.ReadFile s' p = inr b) ->
  (forall m bs, Golden.MarshalMetrics m = inr bs ->
                snd (Golden.json_Unmarshal bs Golden.nilMap) = None) ->
  (forall bs v b,
     Golden.json_Unmarshal bs Golden.nilMap = (v, None) ->
     Golden.json_MarshalIndent v "" "   " = inr b ->
     Golden.UnmarshalMetrics (b ++ Golden.newline) = Golden.UnmarshalMetrics bs) ->
  (forall m bs, Golden.MarshalMetrics m = inr bs ->
                Golden.UnmarshalMetrics bs = (m, None)) ->
  Golden.WriteMetrics fs filePath metrics = (fs', None) ->
  Golden.ReadMetrics fs' filePath = (metrics, None).
Proof.
  intros Hfs Hjson Hindent Hpm. unfold Golden.WriteMetrics, Golden.ReadMetrics.
  destruct (Golden.MarshalMetrics metrics) as [err|fileBytes] eqn:Hm;
    [discriminate|].
  destruct (Golden.json_Unmarshal fileBytes Golden.nilMap) as [v r] eqn:Hu.
  cbn [fst].
  destruct (Golden.json_MarshalIndent v "" "   ") as [err|b] eqn:Hi;
    [discriminate|].
  intros Hw. rewrite (Hfs _ _ _ _ _ Hw).
  pose proof (Hjson _ _ Hm) as Hr. rewrite Hu in Hr. cbn in Hr. subst r.
  rewrite (Hindent _ _ _ Hu Hi). exact (Hpm _ _ Hm).
Qed.
End GoldenProperties.

(** ** The properties on the concrete stage *)

#[local] Existing Instance Scenario.env.

(** The time and the severity sub-parser both fail on this line, and so do
    trace and scope name: the time failure is the one reported. *)
Lemma ParseWith_reports_first_failure_witness :
  exists log,
    ParseWith Scenario.stage Scenario.parseLine
      (Scenario.entryOf (VString "soon LOUD boom"))
    = (Some "time parser: cannot parse timestamp",
       mkEntry None (VString "soon LOUD boom")
         [("ts", VString "soon"); ("level", VString "LOUD")] [] None None None,
       log)
    /\ reported log = ["time parser: cannot parse timestamp"].
Proof.
  exact (ParseWith_reports_first_failure (E := Scenario.env)
           Scenario.stage Scenario.parseLine
           (Scenario.entryOf (VString "soon LOUD boom"))
           (k := KTime) (err := "cannot parse timestamp")
           eq_refl eq_refl eq_refl eq_refl eq_refl eq_refl eq_refl eq_refl).
Defined.


Lemma ParseWith_missing_parse_from_witness :
  ParseWith Scenario.attributeStage Scenario.parseLine (Scenario.entryOf VNil)
  = (Some "Entry is missing the expected parse_from field.",
     Scenario.entryOf VNil,
     [EvGet (Scenario.AttributeField ["raw"]);
      EvHandleEntryError (Scenario.entryOf VNil)
        "Entry is missing the expected parse_from field."]).
Proof.
  exact (ParseWith_missing_parse_from (E := Scenario.env)
           Scenario.attributeStage Scenario.parseLine
           (Scenario.entryOf VNil) eq_refl).
Defined.

Lemma ParseWith_parse_error_witness :
  ParseWith Scenario.stage Scenario.parseLine (Scenario.entryOf (VString "???"))
  = (Some "malformed line", Scenario.entryOf (VString "???"),
     [EvGet (Scenario.BodyField []); EvParse (VString "???");
      EvHandleEntryError (Scenario.entryOf (VString "???")) "malformed line"]).
Proof.
  exact (ParseWith_parse_error (E := Scenario.env)
           Scenario.stage Scenario.parseLine
           (Scenario.entryOf (VString "???")) eq_refl eq_refl).
Defined.

Lemma ProcessWithCallback_skip_witness :
  ProcessWithCallback Scenario.guardedStage Scenario.parseLine
    (Some Scenario.refuse) (Scenario.entryOf VNil)
  = (None, Scenario.entryOf VNil, [EvSkip; EvWrite (Scenario.entryOf VNil)]).
Proof.
  exact (ProcessWithCallback_skip (E := Scenario.env)
           Scenario.guardedStage Scenario.parseLine (Some Scenario.refuse)
           (Scenario.entryOf VNil) eq_refl).
Defined.

Lemma ProcessWithCallback_skip_error_witness :
  ProcessWithCallback Scenario.guardedStage Scenario.parseLine
    (Some Scenario.refuse) (Scenario.entryOf (VBool true))
  = (Some "invalid if expression", Scenario.entryOf (VBool true),
     [EvSkip;
      EvHandleEntryError (Scenario.entryOf (VBool true)) "invalid if expression"]).
Proof.
  exact (ProcessWithCallback_skip_error (E := Scenario.env)
           Scenario.guardedStage Scenario.parseLine (Some Scenario.refuse)
           (Scenario.entryOf (VBool true)) eq_refl).
Defined.

(** Parsing and both sub-parsers succeed on this line, then the callback
    refuses the entry: its error comes back, nothing was reported to the
    error policy and nothing was forwarded. *)
Lemma ProcessWithCallback_callback_error_witness :
  exists res e' log,
    ProcessWithCallback Scenario.timedStage Scenario.parseLine
      (Some Scenario.refuse) (Scenario.entryOf (VString "1609459200 ERROR boom"))
    = (res, e', log)
    /\ res = Some "callback failed"
    /\ written log = []
    /\ reported log = [].
Proof.
  do 3 eexists. split; [reflexivity|].
  destruct (ProcessWithCallback_callback_error (E := Scenario.env)
              Scenario.timedStage Scenario.parseLine (Some Scenario.refuse)
              (Scenario.entryOf (VString "1609459200 ERROR boom")) eq_refl)
    as [_ Hcb].
  destruct (Hcb Scenario.refuse _ _ _ "callback failed"
              eq_refl eq_refl eq_refl eq_refl)
    as (Hres & _ & _ & Hw & _ & Hrep).
  split; [exact Hres|]. split; [exact Hw|].
  apply Hrep. intros x w. discriminate.
Defined.

Lemma Build_failure_returns_zero_witness :
  fst (Build Scenario.badTraceConfig tt) = zeroParserOperator.
Proof.
  exact (Build_failure_returns_zero (E := Scenario.env)
           Scenario.badTraceConfig tt (err := "missing parse_from") eq_refl).
Defined.


(** C4.  [Build] at a configuration whose only sub-parser is a scope-name
    sub-parser without [parse_from].  The sub-parser does not pass its
    validation, yet [Build] returns no error and an operator that carries
    it, and [ParseWith] on that operator reports a scope-name failure on an
    entry whose main parse and write succeed.  The same sub-parser
    configured as trace sub-parser makes [Build] fail.  So it is not the
    case that every configured sub-parser's failing validation fails
    [Build]. *)
Lemma Build_ignores_scope_name_validation :
  configured_validation_fails Scenario.scopeOnlyConfig tt
  /\ Build Scenario.scopeOnlyConfig tt
     = (ParserOperator.mk
          (Scenario.mkTransformer Scenario.SendOnError Scenario.neverSkip)
          (Scenario.BodyField []) (Scenario.AttributeField [])
          None None None (Some (Scenario.mkKeyParser "")),
        None)
  /\ fst (fst (ParseWith (fst (Build Scenario.scopeOnlyConfig tt))
                 Scenario.parseLine
                 (Scenario.entryOf (VString "1609459200 ERROR boom"))))
     = Some "scope_name parser: parse_from field does not contain a string"
  /\ Build Scenario.badTraceConfig tt
     = (zeroParserOperator, Some "missing parse_from")
  /\ ~ (forall (c : ParserConfig.t (E := Scenario.env)) (logger : Logger),
          configured_validation_fails c logger ->
          exists err, snd (Build c logger) = Some err).
Proof.
  assert (Hfail : configured_validation_fails Scenario.scopeOnlyConfig tt).
  { right. exists (Scenario.mkKeyParser ""), "missing parse_from".
    split; reflexivity. }
  split; [exact Hfail|]. split; [reflexivity|]. split; [reflexivity|].
  split; [reflexivity|].
  intros Hclaim. destruct (Hclaim _ _ Hfail) as (err & Herr). discriminate Herr.
Qed.

(** On the concrete stage the default [parse_from] of [NewParserConfig] is
    always found and is the body itself. *)
Lemma Scenario_default_parse_from (operatorID operatorType : string) (e : Entry) :
  Entry_Get e (ParserConfig.ParseFrom (NewParserConfig operatorID operatorType))
  = Some (Body e).
Proof. reflexivity. Qed.

(** ** Further runs on concrete stages *)

(** The write to a keyed body field is refused: the wrapped error is
    reported and the time sub-parser of the stage does not run. *)
Lemma ParseWith_set_error_witness :
  ParseWith Fixtures.blockedStage Scenario.parseLine
    (Scenario.entryOf (VString "1609459200 ERROR boom"))
  = (Some "set parse_to: cannot set field",
     Scenario.entryOf (VString "1609459200 ERROR boom"),
     [EvGet (Scenario.BodyField []);
      EvParse (VString "1609459200 ERROR boom");
      EvSet (Scenario.BodyField ["nested"])
        (VMap [("ts", VInt 1609459200); ("level", VString "ERROR");
               ("message", VString "boom")]);
      EvHandleEntryError (Scenario.entryOf (VString "1609459200 ERROR boom"))
        "set parse_to: cannot set field"]).
Proof.
  exact (ParseWith_set_error (E := Scenario.env)
           Fixtures.blockedStage Scenario.parseLine
           (Scenario.entryOf (VString "1609459200 ERROR boom"))
           (err := "cannot set field") eq_refl eq_refl eq_refl).
Defined.

Lemma ParseWith_success_witness :
  exists e5,
    ParseWith Scenario.timedStage Scenario.parseLine
      (Scenario.entryOf (VString "1609459200 ERROR boom"))
    = (None, e5,
       [EvGet (Scenario.BodyField []);
        EvParse (VString "1609459200 ERROR boom");
        EvSet (Scenario.AttributeField [])
          (VMap [("ts", VInt 1609459200); ("level", VString "ERROR");
                 ("message", VString "boom")]);
        EvSubParser KTime; EvSubParser KSeverity])
    /\ Timestamp e5 = Some 1609459200%Z
    /\ Severity e5 = Some LvlError.
Proof.
  eexists.
  split;
    [ exact (proj1 (ParseWith_success (E := Scenario.env)
                      Scenario.timedStage Scenario.parseLine
                      (Scenario.entryOf (VString "1609459200 ERROR boom"))
                      eq_refl eq_refl eq_refl eq_refl eq_refl eq_refl eq_refl))
    | split; reflexivity ].
Defined.

Lemma ParseWith_reports_at_most_once_witness :
  exists log,
    snd (ParseWith Scenario.stage Scenario.parseLine
           (Scenario.entryOf (VString "soon LOUD boom"))) = log
    /\ written log = []
    /\ reported log = ["time parser: cannot parse timestamp"].
Proof.
  eexists. split; [reflexivity|].
  destruct (ParseWith_reports_at_most_once (E := Scenario.env)
              Scenario.stage Scenario.parseLine
              (Scenario.entryOf (VString "soon LOUD boom")) eq_refl)
    as (Hw & _ & _).
  split; [exact Hw | reflexivity].
Defined.

Lemma ParseWith_enriches_only_after_write_witness :
  exists v v2 e1,
    Scenario.get (Scenario.entryOf (VString "soon LOUD boom"))
      (Scenario.BodyField []) = Some v
    /\ Scenario.parseLine v = inr v2
    /\ Scenario.set (Scenario.entryOf (VString "soon LOUD boom"))
         (Scenario.AttributeField []) v2 = (e1, None).
Proof.
  apply (ParseWith_enriches_only_after_write (E := Scenario.env)
           Scenario.stage Scenario.parseLine
           (Scenario.entryOf (VString "soon LOUD boom")) KTime eq_refl).
  do 3 right. left. reflexivity.
Defined.

Lemma ProcessWithCallback_ParseWith_error_witness :
  exists e1 l1,
    ProcessWithCallback Scenario.stage Scenario.parseLine
      (Some Scenario.refuse) (Scenario.entryOf (VString "soon LOUD boom"))
    = (Some "time parser: cannot parse timestamp", e1, EvSkip :: l1)
    /\ written (EvSkip :: l1) = []
    /\ ~ In EvCallback (EvSkip :: l1).
Proof.
  do 2 eexists.
  exact (ProcessWithCallback_ParseWith_error (E := Scenario.env)
           Scenario.stage Scenario.parseLine (Some Scenario.refuse)
           (Scenario.entryOf (VString "soon LOUD boom"))
           (err := "time parser: cannot parse timestamp") eq_refl eq_refl).
Defined.

(** The callback names the scope of the parsed entry, and that is the entry
    that is forwarded. *)
Lemma ProcessWithCallback_forwards_after_callback_witness :
  exists e2 log,
    ProcessWithCallback Scenario.timedStage Scenario.parseLine
      (Some Fixtures.stamp) (Scenario.entryOf (VString "1609459200 ERROR boom"))
    = (None, e2, log)
    /\ written log = [e2]
    /\ ScopeName e2 = Some "checked"
    /\ Severity e2 = Some LvlError.
Proof.
  destruct (ProcessWithCallback_forwards_after_callback (E := Scenario.env)
              Scenario.timedStage Scenario.parseLine Fixtures.stamp
              (Scenario.entryOf (VString "1609459200 ERROR boom"))
              eq_refl eq_refl eq_refl) as (Hrun & Hw).
  do 2 eexists. split; [exact Hrun|]. split; [exact Hw|]. split; reflexivity.
Defined.

Lemma ProcessWith_forwards_parsed_entry_witness :
  exists e1,
    written (snd (ProcessWith Scenario.timedStage Scenario.parseLine
                    (Scenario.entryOf (VString "1609459200 ERROR boom"))))
    = [e1]
    /\ Timestamp e1 = Some 1609459200%Z.
Proof.
  destruct (ProcessWith_forwards_parsed_entry (E := Scenario.env)
              Scenario.timedStage Scenario.parseLine
              (Scenario.entryOf (VString "1609459200 ERROR boom"))
              eq_refl eq_refl) as (_ & _ & Hw).
  eexists. split; [exact Hw | reflexivity].
Defined.

Lemma ProcessWithCallback_forwards_at_most_once_witness :
  exists e' pre,
    ProcessWithCallback Scenario.timedStage Scenario.parseLine
      (Some Fixtures.stamp) (Scenario.entryOf (VString "1609459200 ERROR boom"))
    = (None, e', pre ++ [EvWrite e'])
    /\ written pre = []
    /\ ScopeName e' = Some "checked".
Proof.
  destruct (ProcessWithCallback_forwards_at_most_once (E := Scenario.env)
              Scenario.timedStage Scenario.parseLine (Some Fixtures.stamp)
              (Scenario.entryOf (VString "1609459200 ERROR boom")) eq_refl)
    as [Hnone | (_ & pre & Hlog & Hpre & _)].
  - discriminate Hnone.
  - eexists. exists pre. split; [rewrite <- Hlog; reflexivity|].
    split; [exact Hpre | reflexivity].
Defined.

(** The error policy of the concrete stage hands every error back. *)
Lemma ProcessWithCallback_nil_iff_forwarded_witness :
  exists res e' log,
    ProcessWithCallback Scenario.timedStage Scenario.parseLine None
      (Scenario.entryOf (VString "1609459200 ERROR boom")) = (res, e', log)
    /\ (res = None <-> written log = [e'])
    /\ (res = None -> reported log = []).
Proof.
  do 3 eexists. split; [reflexivity|].
  apply (ProcessWithCallback_nil_iff_forwarded (E := Scenario.env)
           Scenario.timedStage Scenario.parseLine None
           (Scenario.entryOf (VString "1609459200 ERROR boom"))).
  - intros x w. discriminate.
  - reflexivity.
Defined.

(** Without operator type the transformer's error comes back, although the
    time and trace sub-parsers of the configuration are invalid too. *)
Lemma Build_first_failing_check_witness :
  Build Fixtures.untypedConfig tt
  = (zeroParserOperator, Some "missing required type").
Proof.
  exact (proj1 (Build_first_failing_check (E := Scenario.env)
                  Fixtures.untypedConfig tt)
           "missing required type" eq_refl).
Defined.

Lemma Build_runs_configured_kinds_witness :
  filter isSubParserCall
    (snd (ParseWith (fst (Build Fixtures.fullConfig tt)) Scenario.parseLine
            (Scenario.entryOf (VString "soon ERROR boom"))))
  = [EvSubParser KTime; EvSubParser KSeverity; EvSubParser KTrace;
     EvSubParser KScopeName].
Proof.
  exact (Build_runs_configured_kinds (E := Scenario.env)
           Fixtures.fullConfig tt Scenario.parseLine
           (Scenario.entryOf (VString "soon ERROR boom"))
           eq_refl eq_refl eq_refl eq_refl eq_refl).
Defined.

(** The unary codec and the association-list file system keep the laws the
    round trip asks for. *)
Lemma Unary_count_ones (n : nat) :
  length (filter Golden.Unary.isOne (repeat Byte.x31 n)) = n.
Proof. induction n as [|n IH]; cbn; [reflexivity | rewrite IH; reflexivity]. Qed.

Lemma Unary_count_newline (b : Golden.bytes) :
  length (filter Golden.Unary.isOne (b ++ Golden.newline))
  = length (filter Golden.Unary.isOne b).
Proof. rewrite filter_app, length_app. cbn. apply Nat.add_0_r. Qed.

Lemma ReadMetrics_after_WriteMetrics_witness :
  Golden.ReadMetrics (L := Golden.Unary.libs)
    (fst (Golden.WriteMetrics (L := Golden.Unary.libs) [] "expected.json" 3))
    "expected.json"
  = (3, None).
Proof.
  apply (ReadMetrics_after_WriteMetrics (L := Golden.Unary.libs)
           [] "expected.json" 3).
  - intros s p b perm s'. cbn. destruct (String.eqb p "") eqn:Hp.
    + discriminate.
    + intros H. inversion H; subst. cbn. rewrite String.eqb_refl. reflexivity.
  - intros m bs _. reflexivity.
  - intros bs v b Hu Hi. cbn in Hu, Hi.
    assert (Hb : b = bs) by congruence. rewrite Hb.
    cbn. rewrite Unary_count_newline. reflexivity.
  - intros m bs.
    cbn [Golden.MarshalMetrics Golden.UnmarshalMetrics Golden.Unary.libs].
    destruct (Nat.ltb 3 m); intros H; [discriminate H|].
    inversion H; subst. rewrite Unary_count_ones. reflexivity.
  - reflexivity.
Defined.
